(** * rmaker_lib/node.py: the [Node] client of the RainMaker cloud API

    A shallow embedding of [cli/rmaker_lib/node.py].  Every method of the
    Python class [Node] is a computation in a small monad [M] that

    - asks an environment for the outcome of each call into the outside
      world (the HTTPS transport of [requests], the identity store behind
      [configmanager.Config]),
    - records every such call, and every logger call, as an event,
    - carries the local variable [response] of the running method, which the
      [except Exception] handlers read whether or not it was assigned,
    - and either returns a Python value or raises a Python exception. *)

From Stdlib Require Import String Ascii List ZArith Bool Lia Floats.
From ExtLib Require Import Structures.Monad Structures.MonadExc.
Import ListNotations.
Import MonadNotation.

Local Open Scope Z_scope.
Local Open Scope list_scope.
Local Open Scope string_scope.
Local Open Scope monad_scope.

Set Implicit Arguments.
Set Warnings "-register-all".

(** ** Python values *)

(** The values [json.loads] produces and [json.dumps] consumes.  A [dict] is
    kept as its items in insertion order. *)
Inductive pyval : Type :=
| PNone
| PBool (b : bool)
| PInt (z : Z)
| PFloat (x : float)
| PStr (s : string)
| PList (l : list pyval)
| PDict (d : list (string * pyval)).

(** An arbitrary Python object seen through its attributes (the [session]
    argument of [Node]). *)
Record pyobject : Type := { attributes : list (string * pyval) }.

(** [d[k]] when [k in d]: the keys of a [dict] are distinct, the first item
    with the key is the only one. *)
Fixpoint dict_get (k : string) (d : list (string * pyval)) : option pyval :=
  match d with
  | [] => None
  | (k', v) :: d' => if String.eqb k k' then Some v else dict_get k d'
  end.

Definition dict_has (k : string) (d : list (string * pyval)) : bool :=
  match dict_get k d with Some _ => true | None => false end.

(** [a in b] on two [str]: [a] occurs in [b] as a substring. *)
Fixpoint str_contains (a b : string) : bool :=
  String.prefix a b ||
  match b with
  | EmptyString => false
  | String _ b' => str_contains a b'
  end.

(** [k == v] for a [str] [k]: only an equal [str] compares equal. *)
Definition py_eq_str (v : pyval) (k : string) : bool :=
  match v with
  | PStr s => String.eqb s k
  | _ => false
  end.

(** ** The part of [requests] the client uses *)

Module requests.

Inductive method : Type := GET | PUT.

Record Request : Type := {
  verb : method;
  url : string;
  data : option string;
  headers : list (string * pyval);
  verify : string
}.

Record Response : Type := {
  status_code : Z;
  text : string
}.

(** [Response.raise_for_status] raises [HTTPError] for the client-error
    and server-error classes of status codes, and for no other. *)
Definition is_error_status (r : Response) : bool :=
  ((400 <=? status_code r)%Z && (status_code r <? 500)%Z) ||
  ((500 <=? status_code r)%Z && (status_code r <? 600)%Z).

(** [requests.exceptions]: [ConnectionError] with all its subclasses, and
    some of the other classes, each with its base classes.  An exception of
    any class left out is an [OtherError] below. *)
Module exceptions.

Inductive t : Type :=
| RequestException
| HTTPError
| ConnectionError
| ProxyError
| SSLError
| Timeout
| ConnectTimeout
| ReadTimeout
| TooManyRedirects
| InvalidURL
| InvalidHeader
| ChunkedEncodingError.

Definition bases (c : t) : list t :=
  match c with
  | RequestException => []
  | HTTPError | ConnectionError | Timeout | TooManyRedirects
  | InvalidURL | InvalidHeader | ChunkedEncodingError => [RequestException]
  | ProxyError | SSLError => [ConnectionError]
  | ConnectTimeout => [ConnectionError; Timeout]
  | ReadTimeout => [Timeout]
  end.

Definition eqb (a b : t) : bool :=
  match a, b with
  | RequestException, RequestException | HTTPError, HTTPError
  | ConnectionError, ConnectionError | ProxyError, ProxyError
  | SSLError, SSLError | Timeout, Timeout
  | ConnectTimeout, ConnectTimeout | ReadTimeout, ReadTimeout
  | TooManyRedirects, TooManyRedirects | InvalidURL, InvalidURL
  | InvalidHeader, InvalidHeader
  | ChunkedEncodingError, ChunkedEncodingError => true
  | _, _ => false
  end.

(** The hierarchy is three levels deep. *)
Fixpoint issubclass_upto (depth : nat) (c anc : t) : bool :=
  eqb c anc ||
  match depth with
  | O => false
  | S depth' => existsb (fun b => issubclass_upto depth' b anc) (bases c)
  end.

Definition issubclass : t -> t -> bool := issubclass_upto 3.

End exceptions.

End requests.

(** ** Exceptions *)

(** Modelled from the spec: [rmaker_lib/exceptions.py] is not among the
    sources; its classes [SSLError], [NetworkError] and [InvalidClassInput]
    (the spec's TLSError, NetworkError and InvalidInputError) are the
    constructors of the same names.  The other constructors are the built-in
    exceptions the methods can meet, an exception of [requests] (with the
    response an [HTTPError] holds), and any other exception the outside world
    raises. *)
Inductive exn : Type :=
| SSLError
| NetworkError
| InvalidClassInput (input_arg : pyobject) (err_str : string)
| Exception (arg : string)
| RequestsError (cls : requests.exceptions.t)
                (response : option requests.Response)
| UnboundLocalError (name : string)
| AttributeError (name : string)
| TypeError
| KeyError (key : string)
| JSONDecodeError
| OtherError (cls : string).

(** [isinstance(e, requests.exceptions.<c>)]. *)
Definition isinstance (e : exn) (c : requests.exceptions.t) : bool :=
  match e with
  | RequestsError c' _ => requests.exceptions.issubclass c' c
  | _ => false
  end.

(** [needle in container] for a [str] needle. *)
Definition py_in (needle : string) (container : pyval) : exn + bool :=
  match container with
  | PDict d => inr (dict_has needle d)
  | PList l => inr (existsb (fun v => py_eq_str v needle) l)
  | PStr s => inr (str_contains needle s)
  | PNone | PBool _ | PInt _ | PFloat _ => inl TypeError
  end.

(** [container[key]] for a [str] key. *)
Definition py_getitem (container : pyval) (key : string) : exn + pyval :=
  match container with
  | PDict d =>
      match dict_get key d with
      | Some v => inr v
      | None => inl (KeyError key)
      end
  | _ => inl TypeError
  end.

(** [getattr(obj, name)]. *)
Definition py_getattr (obj : pyobject) (name : string) : exn + pyval :=
  match dict_get name (attributes obj) with
  | Some v => inr v
  | None => inl (AttributeError name)
  end.

(** ** The outside world *)

Inductive level : Type := INFO | DEBUG.

Inductive event : Type :=
| EvLog (lvl : level) (msg : string)
| EvHttp (req : requests.Request) (answer : exn + requests.Response)
| EvLookup (answer : exn + pyval).

(** What the outside world answers, given everything that happened so far:
    the transport either raises or hands back a response, the identity
    store either raises or hands back the user id. *)
Record Env : Type := {
  transport : list event -> requests.Request -> exn + requests.Response;
  identity_store : list event -> exn + pyval
}.

(** Modelled from the spec: [serverconfig.HOST], [configmanager.CERT_FILE]
    are constants of modules that are not among the sources; with them, the
    interpreter's [json.loads] ([None] when it raises), [json.dumps] and
    [str]. *)
Class Runtime : Type := {
  serverconfig_HOST : string;
  configmanager_CERT_FILE : string;
  json_decode : string -> option pyval;
  json_dumps : pyval -> string;
  py_str : pyval -> string
}.

(** ** The monad of method bodies *)

(** The local variable [response] of the running method. *)
Record Frame : Type := { response_var : option requests.Response }.

Definition fresh_frame : Frame := {| response_var := None |}.

Record Run (A : Type) : Type := mkRun {
  emitted : list event;
  locals : Frame;
  outcome : exn + A
}.

Definition M (A : Type) : Type := Env -> list event -> Frame -> Run A.

Definition M_ret {A} (a : A) : M A :=
  fun _ _ fr => mkRun [] fr (inr a).

Definition M_bind {A B} (m : M A) (k : A -> M B) : M B :=
  fun env h fr =>
    match m env h fr with
    | mkRun evs fr' (inl e) => mkRun evs fr' (inl e)
    | mkRun evs fr' (inr a) =>
        match k a env (h ++ evs)%list fr' with
        | mkRun evs' fr'' o => mkRun (evs ++ evs') fr'' o
        end
    end.

Definition M_raise {A} (e : exn) : M A :=
  fun _ _ fr => mkRun [] fr (inl e).

(** [try: m except ...: handler]; the handler sees the locals as the body
    left them. *)
Definition M_catch {A} (m : M A) (handler : exn -> M A) : M A :=
  fun env h fr =>
    match m env h fr with
    | mkRun evs fr' (inl e) =>
        match handler e env (h ++ evs)%list fr' with
        | mkRun evs' fr'' o => mkRun (evs ++ evs') fr'' o
        end
    | mkRun evs fr' (inr a) => mkRun evs fr' (inr a)
    end.

#[global] Instance Monad_M : Monad M :=
  {| ret := @M_ret; bind := @M_bind |}.

#[global] Instance MonadExc_M : MonadExc exn M :=
  {| raise := @M_raise; catch := @M_catch |}.

Definition emit (ev : event) : M unit :=
  fun _ _ fr => mkRun [ev] fr (inr tt).

Definition lift {A} (x : exn + A) : M A :=
  fun _ _ fr => mkRun [] fr x.

(** A method call: the body runs in a frame of its own. *)
Definition def {A} (body : M A) : M A :=
  fun env h fr =>
    match body env h fresh_frame with
    | mkRun evs _ o => mkRun evs fr o
    end.

(** [response = ...] *)
Definition assign_response (r : requests.Response) : M unit :=
  fun _ _ _ => mkRun [] {| response_var := Some r |} (inr tt).

(** Reading the local [response]. *)
Definition load_response : M requests.Response :=
  fun _ _ fr =>
    match response_var fr with
    | Some r => mkRun [] fr (inr r)
    | None => mkRun [] fr (inl (UnboundLocalError "response"))
    end.

(** Modelled from the spec: [rmaker_lib/logger.py] is not among the sources;
    [log] is a sink of info and debug entries with no effect on the caller
    (spec 6). *)
Definition log_info (msg : string) : M unit := emit (EvLog INFO msg).
Definition log_debug (msg : string) : M unit := emit (EvLog DEBUG msg).

(** One call into the transport ([requests.get], [requests.put]): one round
    trip. *)
Definition requests_call (req : requests.Request) : M requests.Response :=
  fun env h fr =>
    let answer := transport env h req in
    mkRun [EvHttp req answer] fr answer.

Definition requests_get (url : string) (headers : list (string * pyval))
    (verify : string) : M requests.Response :=
  requests_call {| requests.verb := requests.GET; requests.url := url;
                   requests.data := None; requests.headers := headers;
                   requests.verify := verify |}.

Definition requests_put (url : string) (data : string)
    (headers : list (string * pyval)) (verify : string)
    : M requests.Response :=
  requests_call {| requests.verb := requests.PUT; requests.url := url;
                   requests.data := Some data; requests.headers := headers;
                   requests.verify := verify |}.

(** [response.raise_for_status()] *)
Definition raise_for_status (r : requests.Response) : M unit :=
  if requests.is_error_status r
  then raise (RequestsError requests.exceptions.HTTPError (Some r))
  else ret tt.

(** Modelled from the spec: [rmaker_lib/configmanager.py] is not among the
    sources; [configmanager.Config().get_user_id()] is one question to the
    external identity store (spec 4.6), which hands back the current user id
    or raises. *)
Definition config_get_user_id : M pyval :=
  fun env h fr =>
    let answer := identity_store env h in
    mkRun [EvLookup answer] fr answer.

(** [json.loads(s)] *)
Definition json_loads `{Runtime} (s : string) : M pyval :=
  match json_decode s with
  | Some v => ret v
  | None => raise JSONDecodeError
  end.

(** [response.json()]: the body decoded as by [json.loads]. *)
Definition response_json `{Runtime} (r : requests.Response) : M pyval :=
  json_loads (requests.text r).

(** ** class Node *)

Record Node : Type := {
  __nodeid : string;
  __session : pyobject;
  __request_header : list (string * pyval)
}.

Section NodeMethods.

Context `{rt : Runtime}.

(** [Node.__init__(self, nodeid, session)], returning the instance. *)
Definition __init__ (nodeid : string) (session : pyobject) : M Node :=
  def (
    log_info ("Initialising node with nodeid : " ++ nodeid) ;;
    request_header <-
      catch
        (id_token <- lift (py_getattr session "id_token") ;;
         ret [("content-type", PStr "application/json");
              ("Authorization", id_token)])
        (fun e =>
           match e with
           | AttributeError _ =>
               raise (InvalidClassInput session
                 "Invalid Session Input.                                              Expected: type <session object>.                                              Received: ")
           | _ => raise e
           end) ;;
    ret {| __nodeid := nodeid;
           __session := session;
           __request_header := request_header |}).

Definition get_nodeid (self : Node) : M string :=
  def (ret (__nodeid self)).

Definition get_node_status (self : Node) : M pyval :=
  def (
    log_info ("Getting online/offline status of the node : " ++
              __nodeid self) ;;
    let path := "user/nodes/status" in
    let query_parameters := "nodeid=" ++ __nodeid self in
    let getnodestatus_url :=
      ((serverconfig_HOST ++ path) ++ "?") ++ query_parameters in
    catch
      (log_debug ("Get node status request url : " ++ getnodestatus_url) ;;
       response <- requests_get getnodestatus_url (__request_header self)
                                configmanager_CERT_FILE ;;
       assign_response response ;;
       log_debug ("Get node status response : " ++ requests.text response) ;;
       raise_for_status response)
      (fun e =>
         if isinstance e requests.exceptions.SSLError then raise SSLError
         else if isinstance e requests.exceptions.ConnectionError
         then raise NetworkError
         else
           response <- load_response ;;
           raise (Exception (requests.text response))) ;;
    log_info "Received node status successfully." ;;
    response <- load_response ;;
    response_json response).

Definition get_node_config (self : Node) : M pyval :=
  def (
    log_info ("Getting node config for node : " ++ __nodeid self) ;;
    let path := "user/nodes/config" in
    let query_parameters := "nodeid=" ++ __nodeid self in
    let getnodeconfig_url :=
      ((serverconfig_HOST ++ path) ++ "?") ++ query_parameters in
    catch
      (log_debug ("Get node config request url : " ++ getnodeconfig_url) ;;
       response <- requests_get getnodeconfig_url (__request_header self)
                                configmanager_CERT_FILE ;;
       assign_response response ;;
       log_debug ("Get node config response : " ++ requests.text response) ;;
       raise_for_status response)
      (fun e =>
         if isinstance e requests.exceptions.SSLError then raise SSLError
         else if isinstance e requests.exceptions.ConnectionError
         then raise NetworkError
         else
           response <- load_response ;;
           raise (Exception (requests.text response))) ;;
    log_info "Received node config successfully." ;;
    response <- load_response ;;
    response_json response).

Definition get_node_params (self : Node) : M pyval :=
  def (
    log_info ("Getting parameters of the node with nodeid : " ++
              __nodeid self) ;;
    let path := "user/nodes/params" in
    let query_parameters := "nodeid=" ++ __nodeid self in
    let getparams_url :=
      ((serverconfig_HOST ++ path) ++ "?") ++ query_parameters in
    catch
      (log_debug ("Get node params request url : " ++ getparams_url) ;;
       response <- requests_get getparams_url (__request_header self)
                                configmanager_CERT_FILE ;;
       assign_response response ;;
       log_debug ("Get node params response : " ++ requests.text response) ;;
       raise_for_status response)
      (fun e =>
         if isinstance e requests.exceptions.SSLError then raise SSLError
         else if isinstance e requests.exceptions.ConnectionError
         then raise NetworkError
         else
           response <- load_response ;;
           raise (Exception (requests.text response))) ;;
    response <- load_response ;;
    response <- json_loads (requests.text response) ;;
    has_status <- lift (py_in "status" response) ;;
    is_failure <-
      (if has_status : bool
       then status <- lift (py_getitem response "status") ;;
            ret (py_eq_str status "failure")
       else ret false) ;;
    if is_failure : bool then ret PNone
    else
      log_info "Received node parameters successfully." ;;
      ret response).

Definition set_node_params (self : Node) (data : pyval) : M pyval :=
  def (
    log_info ("Updating parameters of the node with nodeid : " ++
              __nodeid self) ;;
    let path := "user/nodes/params" in
    let query_parameters := "nodeid=" ++ __nodeid self in
    let setparams_url :=
      ((serverconfig_HOST ++ path) ++ "?") ++ query_parameters in
    catch
      (log_debug ("Set node params request url : " ++ setparams_url) ;;
       log_debug ("Set node params request payload : " ++ json_dumps data) ;;
       response <- requests_put setparams_url (json_dumps data)
                                (__request_header self)
                                configmanager_CERT_FILE ;;
       assign_response response ;;
       log_debug ("Set node params response : " ++ requests.text response) ;;
       raise_for_status response)
      (fun e =>
         if isinstance e requests.exceptions.SSLError then raise SSLError
         else if isinstance e requests.exceptions.ConnectionError
         then raise NetworkError
         else
           response <- load_response ;;
           raise (Exception (requests.text response))) ;;
    log_info "Updated node parameters successfully." ;;
    ret (PBool true)).

Definition __user_node_mapping (self : Node) (secret_key operation : string)
    : M pyval :=
  def (
    let path := "user/nodes/mapping" in
    userid <- config_get_user_id ;;
    let request_payload :=
      PDict [("user_id", userid);
             ("node_id", PStr (__nodeid self));
             ("secret_key", PStr secret_key);
             ("operation", PStr operation)] in
    let request_url := serverconfig_HOST ++ path in
    catch
      (log_debug ("User node mapping request url : " ++ request_url) ;;
       log_debug ("User node mapping request payload : " ++
                  py_str request_payload) ;;
       response <- requests_put request_url (json_dumps request_payload)
                                (__request_header self)
                                configmanager_CERT_FILE ;;
       assign_response response ;;
       log_debug ("User node mapping response : " ++ requests.text response) ;;
       raise_for_status response)
      (fun e =>
         if isinstance e requests.exceptions.SSLError then raise SSLError
         else if isinstance e requests.exceptions.ConnectionError
         then raise NetworkError
         else
           response <- load_response ;;
           raise (Exception (requests.text response))) ;;
    response <- load_response ;;
    response <- catch (json_loads (requests.text response))
                      (fun user_node_mapping_err =>
                         raise user_node_mapping_err) ;;
    has_request_id <- lift (py_in "request_id" response) ;;
    if has_request_id : bool
    then lift (py_getitem response "request_id")
    else ret PNone).

Definition add_user_node_mapping (self : Node) (secret_key : string)
    : M pyval :=
  def (
    log_info ("Adding user node mapping request with nodeid : " ++
              __nodeid self) ;;
    __user_node_mapping self secret_key "add").

Definition remove_user_node_mapping (self : Node) : M pyval :=
  def (
    log_info ("Removing user node mapping with nodeid : " ++
              __nodeid self) ;;
    let secret_key := "" in
    __user_node_mapping self secret_key "remove").

Definition get_mapping_status (self : Node) (request_id : string)
    : M pyval :=
  def (
    log_info ("Checking status of user node mapping with request_id : " ++
              request_id) ;;
    let path := "user/nodes/mapping" in
    let query_parameters := "&request_id=" ++ request_id in
    let request_url :=
      ((serverconfig_HOST ++ path) ++ "?") ++ query_parameters in
    catch
      (log_debug ("Check user node mapping status request url : " ++
                  request_url) ;;
       response <- requests_get request_url (__request_header self)
                                configmanager_CERT_FILE ;;
       assign_response response ;;
       log_debug ("Check user node mapping status response : " ++
                  requests.text response) ;;
       raise_for_status response)
      (fun e =>
         if isinstance e requests.exceptions.SSLError then raise SSLError
         else if isinstance e requests.exceptions.ConnectionError
         then raise NetworkError
         else let mapping_status_err := e in raise mapping_status_err) ;;
    response <- load_response ;;
    response <- catch (json_loads (requests.text response))
                      (fun mapping_status_err => raise mapping_status_err) ;;
    has_request_status <- lift (py_in "request_status" response) ;;
    if has_request_status : bool
    then lift (py_getitem response "request_status")
    else ret PNone).

End NodeMethods.

(** ** The public operations, and what a run shows *)

Inductive operation : Type :=
| GetNodeStatus
| GetNodeConfig
| GetNodeParams
| SetNodeParams (data : pyval)
| AddUserNodeMapping (secret_key : string)
| RemoveUserNodeMapping
| GetMappingStatus (request_id : string).

Definition invoke `{Runtime} (self : Node) (op : operation) : M pyval :=
  match op with
  | GetNodeStatus => get_node_status self
  | GetNodeConfig => get_node_config self
  | GetNodeParams => get_node_params self
  | SetNodeParams data => set_node_params self data
  | AddUserNodeMapping secret_key => add_user_node_mapping self secret_key
  | RemoveUserNodeMapping => remove_user_node_mapping self
  | GetMappingStatus request_id => get_mapping_status self request_id
  end.

(** The transport calls among the events, in order, with their answers. *)
Fixpoint http_calls (evs : list event)
    : list (requests.Request * (exn + requests.Response)) :=
  match evs with
  | [] => []
  | EvHttp req answer :: evs' => (req, answer) :: http_calls evs'
  | _ :: evs' => http_calls evs'
  end.

(** The questions to the identity store among the events, with their
    answers. *)
Fixpoint lookups (evs : list event) : list (exn + pyval) :=
  match evs with
  | [] => []
  | EvLookup answer :: evs' => answer :: lookups evs'
  | _ :: evs' => lookups evs'
  end.

Definition round_trips (evs : list event) : nat := length (http_calls evs).

Definition is_2xx (r : requests.Response) : Prop :=
  200 <= requests.status_code r < 300.

(** The transport gave [answer] to a call of the run. *)
Definition answered {A} (r : Run A) (answer : exn + requests.Response)
    : Prop :=
  exists req, In (req, answer) (http_calls (emitted r)).

(** The identity store raised during the run. *)
Definition lookup_raised (evs : list event) : bool :=
  existsb (fun answer => match answer with inl _ => true | inr _ => false end)
          (lookups evs).

(** The response body an exception gives its handler: the argument of a
    plain [Exception], the body of the response an [HTTPError] holds. *)
Definition carried_body (e : exn) : option string :=
  match e with
  | Exception arg => Some arg
  | RequestsError _ (Some r) => Some (requests.text r)
  | _ => None
  end.

(** The mapping request body of section 4.6. *)
Definition mapping_payload (userid : pyval) (self : Node)
    (secret_key operation : string) : pyval :=
  PDict [("user_id", userid);
         ("node_id", PStr (__nodeid self));
         ("secret_key", PStr secret_key);
         ("operation", PStr operation)].

Definition mapping_request `{Runtime} (userid : pyval) (self : Node)
    (secret_key operation : string) : requests.Request :=
  {| requests.verb := requests.PUT;
     requests.url := serverconfig_HOST ++ "user/nodes/mapping";
     requests.data :=
       Some (json_dumps (mapping_payload userid self secret_key operation));
     requests.headers := __request_header self;
     requests.verify := configmanager_CERT_FILE |}.

(** ** The spec's sentences that the proofs below compare with the code *)

(** The decoded payload has a field [status] whose value is ["failure"]. *)
Definition status_is_failure (v : pyval) : bool :=
  match v with
  | PDict d =>
      match dict_get "status" d with
      | Some w => py_eq_str w "failure"
      | None => false
      end
  | _ => false
  end.

(** The field [k] of a decoded payload, when it is an object that has it. *)
Definition field (v : pyval) (k : string) : option pyval :=
  match v with
  | PDict d => dict_get k d
  | _ => None
  end.

Definition or_none (o : option pyval) : pyval :=
  match o with
  | Some w => w
  | None => PNone
  end.

(** Spec 4.4 and 8, as written: over every well-formed JSON body. *)
Definition get_node_params_spec : Prop :=
  forall (R : Runtime) (self : Node) (env : Env) (h : list event)
         (fr : Frame) (resp : requests.Response) (v : pyval),
    answered (get_node_params self env h fr) (inr resp) ->
    is_2xx resp ->
    json_decode (requests.text resp) = Some v ->
    (outcome (get_node_params self env h fr) = inr PNone <->
     status_is_failure v = true) /\
    (status_is_failure v = false ->
     outcome (get_node_params self env h fr) = inr v).

(** Spec 8, as written: a missing correlation field gives [None], without
    raising, over every well-formed JSON body. *)
Definition correlation_field_spec : Prop :=
  forall (R : Runtime) (self : Node) (secret_key operation request_id : string)
         (env : Env) (h : list event) (fr : Frame)
         (resp : requests.Response) (v : pyval),
    is_2xx resp ->
    json_decode (requests.text resp) = Some v ->
    (answered (__user_node_mapping self secret_key operation env h fr)
              (inr resp) ->
     outcome (__user_node_mapping self secret_key operation env h fr) =
       inr (or_none (field v "request_id"))) /\
    (answered (get_mapping_status self request_id env h fr) (inr resp) ->
     outcome (get_mapping_status self request_id env h fr) =
       inr (or_none (field v "request_status"))).

(** Spec 7, as written: every status outside 2xx raises, with the body. *)
Definition http_error_spec : Prop :=
  forall (R : Runtime) (self : Node) (op : operation) (env : Env)
         (h : list event) (fr : Frame) (resp : requests.Response),
    answered (invoke self op env h fr) (inr resp) ->
    ~ is_2xx resp ->
    exists e, outcome (invoke self op env h fr) = inl e /\
              carried_body e = Some (requests.text resp).

(** Spec 1 and 4.2, as written: one round trip on every invocation. *)
Definition one_round_trip_spec : Prop :=
  forall (R : Runtime) (self : Node) (op : operation) (env : Env)
         (h : list event) (fr : Frame),
    round_trips (emitted (invoke self op env h fr)) = 1%nat.

(** The operations that ask the identity store. *)
Definition uses_identity_store (op : operation) : bool :=
  match op with
  | AddUserNodeMapping _ | RemoveUserNodeMapping => true
  | _ => false
  end.

(** What [get_node_params] makes of a decoded payload. *)
Definition params_result (v : pyval) : exn + pyval :=
  match v with
  | PDict _ => if status_is_failure v then inr PNone else inr v
  | PStr s => if str_contains "status" s then inl TypeError else inr v
  | PList l =>
      if existsb (fun x => py_eq_str x "status") l
      then inl TypeError else inr v
  | PNone | PBool _ | PInt _ | PFloat _ => inl TypeError
  end.

(** What the mapping methods make of a decoded payload, for their
    correlation field [k]. *)
Definition correlation_result (k : string) (v : pyval) : exn + pyval :=
  match v with
  | PDict d => inr (or_none (dict_get k d))
  | PStr s => if str_contains k s then inl TypeError else inr PNone
  | PList l =>
      if existsb (fun x => py_eq_str x k) l then inl TypeError else inr PNone
  | PNone | PBool _ | PInt _ | PFloat _ => inl TypeError
  end.

(** ** What a method makes of the answers it gets *)

(** The [except] clauses of a method, on the exception [e] its [try] block
    raised: [reraise] tells [get_mapping_status], which raises what it
    caught, from the other methods, which read the local [response]. *)
Definition handled (reraise : bool) (e : exn)
    (response : option requests.Response) : exn :=
  if isinstance e requests.exceptions.SSLError then SSLError
  else if isinstance e requests.exceptions.ConnectionError then NetworkError
  else if reraise then e
  else match response with
       | Some r => Exception (requests.text r)
       | None => UnboundLocalError "response"
       end.

(** The result of a method from the answer of the transport; [read] is what
    the method does with a response that passed [raise_for_status]. *)
Definition settle (reraise : bool)
    (read : requests.Response -> exn + pyval)
    (answer : exn + requests.Response) : exn + pyval :=
  match answer with
  | inl e => inl (handled reraise e None)
  | inr resp =>
      if requests.is_error_status resp
      then inl (handled reraise
                  (RequestsError requests.exceptions.HTTPError (Some resp))
                  (Some resp))
      else read resp
  end.

Definition decoded `{Runtime} (read : pyval -> exn + pyval)
    (resp : requests.Response) : exn + pyval :=
  match json_decode (requests.text resp) with
  | Some v => read v
  | None => inl JSONDecodeError
  end.

Definition reraises (op : operation) : bool :=
  match op with
  | GetMappingStatus _ => true
  | _ => false
  end.

Definition reads `{Runtime} (op : operation) (resp : requests.Response)
    : exn + pyval :=
  match op with
  | GetNodeStatus | GetNodeConfig => decoded inr resp
  | GetNodeParams => decoded params_result resp
  | SetNodeParams _ => inr (PBool true)
  | AddUserNodeMapping _ | RemoveUserNodeMapping =>
      decoded (correlation_result "request_id") resp
  | GetMappingStatus _ => decoded (correlation_result "request_status") resp
  end.

(** The exception a 4xx or 5xx response ends in. *)
Definition http_error_of (op : operation) (resp : requests.Response) : exn :=
  match op with
  | GetMappingStatus _ =>
      RequestsError requests.exceptions.HTTPError (Some resp)
  | _ => Exception (requests.text resp)
  end.

(** The table of spec 6: the request of each operation ([userid] matters to
    the two mapping operations only). *)
Definition node_query `{Runtime} (path : string) (self : Node) : string :=
  ((serverconfig_HOST ++ path) ++ "?") ++ "nodeid=" ++ __nodeid self.

Definition get_request `{Runtime} (url : string) (self : Node)
    : requests.Request :=
  {| requests.verb := requests.GET;
     requests.url := url;
     requests.data := None;
     requests.headers := __request_header self;
     requests.verify := configmanager_CERT_FILE |}.

Definition request_of `{Runtime} (self : Node) (op : operation)
    (userid : pyval) : requests.Request :=
  match op with
  | GetNodeStatus => get_request (node_query "user/nodes/status" self) self
  | GetNodeConfig => get_request (node_query "user/nodes/config" self) self
  | GetNodeParams => get_request (node_query "user/nodes/params" self) self
  | SetNodeParams data =>
      {| requests.verb := requests.PUT;
         requests.url := node_query "user/nodes/params" self;
         requests.data := Some (json_dumps data);
         requests.headers := __request_header self;
         requests.verify := configmanager_CERT_FILE |}
  | AddUserNodeMapping secret_key =>
      mapping_request userid self secret_key "add"
  | RemoveUserNodeMapping => mapping_request userid self "" "remove"
  | GetMappingStatus request_id =>
      get_request (((serverconfig_HOST ++ "user/nodes/mapping") ++ "?") ++
                   "&request_id=" ++ request_id) self
  end.

(** The three ways a method runs: it calls the transport once without
    asking the identity store; it asks the store, gets a user id, and calls
    the transport once; or the store raises and the transport is never
    called.  [asks] tells which methods ask, [request] is the request sent
    and [settled] the result for each answer of the transport. *)
Inductive run_shape (r : Run pyval) (asks : bool)
    (request : pyval -> requests.Request)
    (settled : exn + requests.Response -> exn + pyval) : Prop :=
| RunDirect (answer : exn + requests.Response) :
    asks = false ->
    lookups (emitted r) = [] ->
    http_calls (emitted r) = [(request PNone, answer)] ->
    outcome r = settled answer ->
    run_shape r asks request settled
| RunMapped (userid : pyval) (answer : exn + requests.Response) :
    asks = true ->
    lookups (emitted r) = [inr userid] ->
    http_calls (emitted r) = [(request userid, answer)] ->
    outcome r = settled answer ->
    run_shape r asks request settled
| RunNoUser (e : exn) :
    asks = true ->
    lookups (emitted r) = [inl e] ->
    http_calls (emitted r) = [] ->
    outcome r = inl e ->
    run_shape r asks request settled.

(** ** A concrete world for examples *)

Module Demo.

Definition dq : string := String "034"%char EmptyString.

(** [quoted s] is [s] between double quotes. *)
Definition quoted (s : string) : string := dq ++ s ++ dq.

(** [{"k":"v"}] *)
Definition obj1 (k v : string) : string :=
  "{" ++ quoted k ++ ":" ++ quoted v ++ "}".

(** [{"connectivity":{"connected":true}}] *)
Definition connectivity : string :=
  "{" ++ quoted "connectivity" ++ ":{" ++ quoted "connected" ++ ":true}}".

(** A decoder for the handful of bodies the examples use. *)
Definition decode (s : string) : option pyval :=
  if String.eqb s "null" then Some PNone
  else if String.eqb s "5" then Some (PInt 5)
  else if String.eqb s "{}" then Some (PDict [])
  else if String.eqb s (obj1 "status" "failure")
  then Some (PDict [("status", PStr "failure")])
  else if String.eqb s (obj1 "status" "ok")
  then Some (PDict [("status", PStr "ok")])
  else if String.eqb s (obj1 "request_id" "req-42")
  then Some (PDict [("request_id", PStr "req-42")])
  else if String.eqb s (obj1 "request_status" "confirmed")
  then Some (PDict [("request_status", PStr "confirmed")])
  else if String.eqb s ("[" ++ quoted "status" ++ "]")
  then Some (PList [PStr "status"])
  else if String.eqb s connectivity
  then Some (PDict [("connectivity", PDict [("connected", PBool true)])])
  else None.

(** An encoder in the layout of [json.dumps], for payloads whose fields
    are strings, booleans or [None]. *)
Definition encode_atom (v : pyval) : string :=
  match v with
  | PStr s => quoted s
  | PBool true => "true"
  | PBool false => "false"
  | _ => "null"
  end.

Fixpoint encode_items (d : list (string * pyval)) : string :=
  match d with
  | [] => ""
  | (k, v) :: d' =>
      quoted k ++ ": " ++ encode_atom v ++
      match d' with
      | [] => ""
      | _ :: _ => ", " ++ encode_items d'
      end
  end.

Definition encode (v : pyval) : string :=
  match v with
  | PDict d => "{" ++ encode_items d ++ "}"
  | _ => encode_atom v
  end.

Definition runtime : Runtime :=
  {| serverconfig_HOST := "https://api.example/v1/";
     configmanager_CERT_FILE := "server_cert.pem";
     json_decode := decode;
     json_dumps := encode;
     py_str := encode |}.

(** A world whose transport gives the same answer to every call and whose
    identity store gives the same answer to every question. *)
Definition world (net : exn + requests.Response) (store : exn + pyval)
    : Env :=
  {| transport := fun _ _ => net; identity_store := fun _ => store |}.

Definition responds (status : Z) (body : string)
    : exn + requests.Response :=
  inr {| requests.status_code := status; requests.text := body |}.

(** A world in which another user has logged in after the first question
    to the identity store. *)
Definition relogin (net : exn + requests.Response) : Env :=
  {| transport := fun _ _ => net;
     identity_store := fun h =>
       match lookups h with
       | [] => inr (PStr "user-1")
       | _ :: _ => inr (PStr "user-2")
       end |}.

Definition session : pyobject :=
  {| attributes := [("id_token", PStr "tok")] |}.

Definition node : Node :=
  {| __nodeid := "abcd1234";
     __session := session;
     __request_header := [("content-type", PStr "application/json");
                          ("Authorization", PStr "tok")] |}.

End Demo.

(** ** A second decoder, for bodies that are JSON strings *)

Module Fixtures.

(** [Demo.decode], and two bodies that are a JSON string. *)
Definition decode (s : string) : option pyval :=
  if String.eqb s (Demo.quoted "online") then Some (PStr "online")
  else if String.eqb s (Demo.quoted "no status yet")
  then Some (PStr "no status yet")
  else Demo.decode s.

Definition runtime : Runtime :=
  {| serverconfig_HOST := "https://api.example/v1/";
     configmanager_CERT_FILE := "server_cert.pem";
     json_decode := decode;
     json_dumps := Demo.encode;
     py_str := Demo.encode |}.

End Fixtures.

(** * Proofs *)

(** ** Running a method symbolically *)

Ltac exec :=
  cbv [invoke get_node_status get_node_config get_node_params set_node_params
       add_user_node_mapping remove_user_node_mapping get_mapping_status
       __user_node_mapping __init__ get_nodeid
       def bind ret catch raise Monad_M MonadExc_M M_bind M_ret M_catch M_raise
       log_info log_debug emit lift requests_get requests_put requests_call
       assign_response load_response config_get_user_id raise_for_status
       response_json json_loads py_getitem dict_has
       emitted outcome locals response_var fresh_frame];
  cbn [app py_in isinstance requests.exceptions.issubclass
       requests.exceptions.issubclass_upto requests.exceptions.eqb
       requests.exceptions.bases existsb orb].

(** One case split on an answer of the outside world or on a test of the
    method. *)
Ltac branch :=
  match goal with
  | |- context [transport ?e ?h ?r] =>
      destruct (transport e h r) as [?ex|?rsp] eqn:?
  | |- context [identity_store ?e ?h] =>
      destruct (identity_store e h) as [?ex|?uid] eqn:?
  | |- context [isinstance ?e ?c] => destruct (isinstance e c) eqn:?
  | |- context [requests.is_error_status ?r] =>
      destruct (requests.is_error_status r) eqn:?
  | |- context [json_decode ?s] => destruct (json_decode s) as [?v|] eqn:?
  | |- context [py_in _ ?v] => destruct v as [| | | | ?s | ?l | ?d]
  | |- context [dict_get ?k ?d] => destruct (dict_get k d) as [?w|] eqn:?
  | |- context [str_contains ?k ?s] => destruct (str_contains k s) eqn:?
  | |- context [existsb ?f ?l] => destruct (existsb f l) eqn:?
  | |- context [py_eq_str ?w ?k] => destruct (py_eq_str w k) eqn:?
  end.

Ltac run := exec; repeat (branch; exec).

(** Reading the equations a run leaves behind. *)
Ltac tidy :=
  repeat match goal with
    | H : exists _, _ |- _ => destruct H
    | H : _ /\ _ |- _ => destruct H
    | H : In _ (_ :: _) |- _ => destruct H
    | H : In _ [] |- _ => destruct H
    | H : False |- _ => destruct H
    | H : ?x = ?x |- _ => clear H
    | H : (_, _) = (_, _) |- _ => injection H; clear H; intros
    | H : inl _ = inl _ |- _ => injection H; clear H; intros
    | H : inr _ = inr _ |- _ => injection H; clear H; intros
    | H : Some _ = Some _ |- _ => injection H; clear H; intros
    | H : _ :: _ = _ :: _ |- _ => injection H; clear H; intros
    | _ => discriminate
    | _ => progress subst
    end.

(** Closing one path of a run against the functional description. *)
Ltac settled :=
  cbv [settle handled decoded reads reraises params_result correlation_result
       status_is_failure or_none];
  cbn [isinstance requests.exceptions.issubclass
       requests.exceptions.issubclass_upto requests.exceptions.eqb
       requests.exceptions.bases existsb orb py_eq_str];
  tidy;
  repeat match goal with H : _ = _ |- _ => rewrite H end;
  reflexivity.

Ltac shape :=
  do 2 eexists; split; [reflexivity|];
  first [ eapply RunDirect; cbn [emitted outcome lookups http_calls];
          [reflexivity | reflexivity | reflexivity | settled]
        | eapply RunMapped; cbn [emitted outcome lookups http_calls];
          [reflexivity | reflexivity | reflexivity | settled]
        | eapply RunNoUser; cbn [emitted outcome lookups http_calls];
          [reflexivity | reflexivity | reflexivity | reflexivity] ].

(** Every operation runs in one of the three ways, leaves the caller's
    locals alone, sends the request of the table and settles the answer as
    [settle] says. *)
Lemma invoke_run :
  forall (R : Runtime) (self : Node) (op : operation) (env : Env)
         (h : list event) (fr : Frame),
    locals (invoke self op env h fr) = fr /\
    run_shape (invoke self op env h fr) (uses_identity_store op)
              (request_of self op) (settle (reraises op) (reads op)).
Proof.
  intros R self op env h fr.
  enough (exists evs o,
            invoke self op env h fr = mkRun evs fr o /\
            run_shape (mkRun evs fr o) (uses_identity_store op)
                      (request_of self op)
                      (settle (reraises op) (reads op)))
    as (evs & o & -> & Hshape) by (split; [reflexivity | exact Hshape]).
  destruct op; run; shape.
Qed.

(** The mapping primitive asks the identity store before anything else,
    then runs as a method that asks. *)
Lemma user_node_mapping_run :
  forall (R : Runtime) (self : Node) (secret_key operation : string)
         (env : Env) (h : list event) (fr : Frame),
    (exists rest,
       emitted (__user_node_mapping self secret_key operation env h fr) =
         EvLookup (identity_store env h) :: rest) /\
    run_shape (__user_node_mapping self secret_key operation env h fr) true
              (fun userid => mapping_request userid self secret_key operation)
              (settle false (decoded (correlation_result "request_id"))).
Proof.
  intros R self secret_key operation env h fr.
  enough (exists evs o,
            __user_node_mapping self secret_key operation env h fr =
              mkRun (EvLookup (identity_store env h) :: evs) fr o /\
            run_shape (mkRun (EvLookup (identity_store env h) :: evs) fr o)
                      true
                      (fun userid =>
                         mapping_request userid self secret_key operation)
                      (settle false
                         (decoded (correlation_result "request_id"))))
    as (evs & o & -> & Hshape)
    by (split; [eexists; reflexivity | exact Hshape]).
  run; shape.
Qed.

(** ** Consequences of the shape of a run *)

Section Shape.

Variables (r : Run pyval) (asks : bool)
          (request : pyval -> requests.Request)
          (settled : exn + requests.Response -> exn + pyval).
Hypothesis Hshape : run_shape r asks request settled.

Lemma shape_answered (answer : exn + requests.Response) :
  answered r answer -> outcome r = settled answer.
Proof.
  intros [req Hin].
  destruct Hshape as [a _ _ Hc Ho | u a _ _ Hc Ho | e _ _ Hc _];
    rewrite Hc in Hin; tidy; assumption.
Qed.

Lemma shape_answered_once (answer : exn + requests.Response) :
  answered r answer -> round_trips (emitted r) = 1%nat.
Proof.
  intros [req Hin]. unfold round_trips.
  destruct Hshape as [a _ _ Hc _ | u a _ _ Hc _ | e _ _ Hc _];
    rewrite Hc in *; tidy; reflexivity.
Qed.

Lemma shape_round_trips :
  round_trips (emitted r) =
    (if lookup_raised (emitted r) then 0 else 1)%nat /\
  length (lookups (emitted r)) = (if asks then 1 else 0)%nat.
Proof.
  unfold round_trips, lookup_raised.
  destruct Hshape as [a Ha Hl Hc _ | u a Ha Hl Hc _ | e Ha Hl Hc _];
    rewrite Hl, Hc, Ha; split; reflexivity.
Qed.

Lemma shape_direct :
  asks = false ->
  exists answer, http_calls (emitted r) = [(request PNone, answer)].
Proof.
  intros Hasks.
  destruct Hshape as [a _ _ Hc _ | u a Ha _ _ _ | e Ha _ _ _];
    [eexists; exact Hc | congruence | congruence].
Qed.

Lemma shape_returns (v : pyval) :
  outcome r = inr v ->
  exists answer, answered r answer /\ settled answer = inr v.
Proof.
  intros Hv.
  destruct Hshape as [a _ _ Hc Ho | u a _ _ Hc Ho | e _ _ _ Ho].
  - exists a. split; [eexists; rewrite Hc; left; reflexivity | congruence].
  - exists a. split; [eexists; rewrite Hc; left; reflexivity | congruence].
  - congruence.
Qed.

Lemma shape_with_user (userid : pyval) :
  lookups (emitted r) = [inr userid] ->
  exists answer, http_calls (emitted r) = [(request userid, answer)].
Proof.
  intros Hu.
  destruct Hshape as [a _ Hl _ _ | u a _ Hl Hc _ | e _ Hl _ _];
    rewrite Hl in Hu; tidy.
  eexists; exact Hc.
Qed.

Lemma shape_without_user (e : exn) :
  In (inl e) (lookups (emitted r)) ->
  outcome r = inl e /\ http_calls (emitted r) = [].
Proof.
  intros Hu.
  destruct Hshape as [a _ Hl _ _ | u a _ Hl _ _ | e' _ Hl Hc Ho];
    rewrite Hl in Hu; tidy.
  split; assumption.
Qed.

End Shape.

Lemma error_status_iff (r : requests.Response) :
  requests.is_error_status r = true <-> 400 <= requests.status_code r < 600.
Proof.
  unfold requests.is_error_status.
  destruct (Z.leb_spec 400 (requests.status_code r));
    destruct (Z.ltb_spec (requests.status_code r) 500);
    destruct (Z.leb_spec 500 (requests.status_code r));
    destruct (Z.ltb_spec (requests.status_code r) 600);
    cbn; split; intros; try lia; try discriminate; reflexivity.
Qed.

Lemma error_status_not_2xx (r : requests.Response) :
  is_2xx r -> requests.is_error_status r = false.
Proof.
  intros Hr. destruct (requests.is_error_status r) eqn:E; [|reflexivity].
  apply error_status_iff in E. unfold is_2xx in Hr. lia.
Qed.

Lemma append_assoc (a b c : string) : (a ++ b) ++ c = a ++ b ++ c.
Proof.
  induction a as [|ch a IH]; cbn; [reflexivity | now rewrite IH].
Qed.

(** ** Construction *)

(** C4: constructing a [Node] only logs, so it performs no network I/O; it
    succeeds with the header built from the token when the session has the
    attribute [id_token], and raises [InvalidClassInput] when it has not. *)
Theorem init_builds_header_without_network :
  forall (nodeid : string) (session : pyobject) (env : Env)
         (h : list event) (fr : Frame),
    emitted (__init__ nodeid session env h fr) =
      [EvLog INFO ("Initialising node with nodeid : " ++ nodeid)] /\
    round_trips (emitted (__init__ nodeid session env h fr)) = 0%nat /\
    (forall token, py_getattr session "id_token" = inr token ->
       outcome (__init__ nodeid session env h fr) =
         inr {| __nodeid := nodeid;
                __session := session;
                __request_header :=
                  [("content-type", PStr "application/json");
                   ("Authorization", token)] |}) /\
    (forall e, py_getattr session "id_token" = inl e ->
       exists err_str,
         outcome (__init__ nodeid session env h fr) =
           inl (InvalidClassInput session err_str)).
Proof.
  intros nodeid session env h fr. exec. unfold py_getattr.
  destruct (dict_get "id_token" (attributes session)) as [token|]; exec;
    repeat split; intros; tidy; try reflexivity.
  eexists; reflexivity.
Qed.

(** The witness of C4: a session with a token, and one without. *)
Lemma init_builds_header_without_network_witness :
  outcome (__init__ "abcd1234" Demo.session
             (Demo.world (inl NetworkError) (inl NetworkError)) []
             fresh_frame) = inr Demo.node /\
  exists err_str,
    outcome (__init__ "abcd1234" {| attributes := [] |}
               (Demo.world (inl NetworkError) (inl NetworkError)) []
               fresh_frame) =
      inl (InvalidClassInput {| attributes := [] |} err_str).
Proof.
  split.
  - apply (init_builds_header_without_network "abcd1234" Demo.session
             (Demo.world (inl NetworkError) (inl NetworkError)) []
             fresh_frame).
    reflexivity.
  - apply (init_builds_header_without_network "abcd1234"
             {| attributes := [] |}
             (Demo.world (inl NetworkError) (inl NetworkError)) []
             fresh_frame) with (e := AttributeError "id_token").
    reflexivity.
Defined.

(** ** setNodeParams *)

(** C7: for every payload [data] and every 2xx response, whatever its body,
    [set_node_params data] returns [True]; the body is never decoded. *)
Theorem set_node_params_true_on_2xx :
  forall (R : Runtime) (self : Node) (data : pyval) (env : Env)
         (h : list event) (fr : Frame) (resp : requests.Response),
    answered (set_node_params self data env h fr) (inr resp) ->
    is_2xx resp ->
    outcome (set_node_params self data env h fr) = inr (PBool true).
Proof.
  intros R self data env h fr resp Hans H2xx.
  destruct (invoke_run R self (SetNodeParams data) env h fr) as [_ Hshape].
  cbn [invoke] in Hshape.
  rewrite (shape_answered Hshape Hans). cbn [settle reads].
  now rewrite (error_status_not_2xx H2xx).
Qed.

(** The witness of C7: a 2xx response whose body is not even JSON. *)
Lemma set_node_params_true_on_2xx_witness :
  outcome (@set_node_params Demo.runtime Demo.node
             (PDict [("Light", PDict [("power", PBool true)])])
             (Demo.world (Demo.responds 204 "<html>") (inr PNone)) []
             fresh_frame) = inr (PBool true).
Proof.
  apply (@set_node_params_true_on_2xx Demo.runtime Demo.node
           (PDict [("Light", PDict [("power", PBool true)])])
           (Demo.world (Demo.responds 204 "<html>") (inr PNone)) []
           fresh_frame
           {| requests.status_code := 204; requests.text := "<html>" |}).
  - eexists. vm_compute. left. reflexivity.
  - unfold is_2xx. cbn. lia.
Defined.

(** ** getMappingStatus: the request *)

(** C8: [get_mapping_status request_id] issues one GET, to the mapping path
    followed by [?&request_id=] and the request id. *)
Theorem get_mapping_status_url :
  forall (R : Runtime) (self : Node) (request_id : string) (env : Env)
         (h : list event) (fr : Frame),
  exists answer,
    http_calls (emitted (get_mapping_status self request_id env h fr)) =
      [({| requests.verb := requests.GET;
           requests.url :=
             (serverconfig_HOST ++ "user/nodes/mapping") ++
             "?&request_id=" ++ request_id;
           requests.data := None;
           requests.headers := __request_header self;
           requests.verify := configmanager_CERT_FILE |}, answer)].
Proof.
  intros R self request_id env h fr.
  destruct (invoke_run R self (GetMappingStatus request_id) env h fr)
    as [_ Hshape].
  cbn [invoke] in Hshape.
  destruct (shape_direct Hshape eq_refl) as [answer Hcalls].
  exists answer. rewrite Hcalls.
  cbn [request_of]. unfold get_request.
  now rewrite append_assoc.
Qed.

(** ** getNodeParams *)

(** C1 (as the code has it): after a 2xx response with a well-formed JSON
    body, [get_node_params] returns [None] exactly when the decoded payload
    is an object whose field [status] is ["failure"]; any other object is
    returned unchanged; a string or an array is returned unchanged when it
    does not contain ["status"]; every other payload raises [TypeError]. *)
Theorem get_node_params_soft_failure :
  forall (R : Runtime) (self : Node) (env : Env) (h : list event)
         (fr : Frame) (resp : requests.Response) (v : pyval),
    answered (get_node_params self env h fr) (inr resp) ->
    is_2xx resp ->
    json_decode (requests.text resp) = Some v ->
    (outcome (get_node_params self env h fr) = inr PNone <->
     status_is_failure v = true) /\
    (forall d, v = PDict d -> status_is_failure v = false ->
       outcome (get_node_params self env h fr) = inr v) /\
    outcome (get_node_params self env h fr) = params_result v.
Proof.
  intros R self env h fr resp v Hans H2xx Hdec.
  destruct (invoke_run R self GetNodeParams env h fr) as [_ Hshape].
  cbn [invoke] in Hshape.
  rewrite (shape_answered Hshape Hans). cbn [settle reads].
  rewrite (error_status_not_2xx H2xx). unfold decoded. rewrite Hdec.
  repeat split.
  - destruct v; cbn; try discriminate.
    + destruct (str_contains _ _); discriminate.
    + destruct (existsb _ _); discriminate.
    + destruct (match dict_get "status" d with
                | Some w => py_eq_str w "failure" | None => false end);
        [reflexivity | discriminate].
  - intros Hf. destruct v; try discriminate.
    unfold params_result. now rewrite Hf.
  - intros d -> Hf. unfold params_result. now rewrite Hf.
Qed.

(** The witness of C1: the soft failure of spec 8. *)
Lemma get_node_params_soft_failure_witness :
  outcome (@get_node_params Demo.runtime Demo.node
             (Demo.world (Demo.responds 200 (Demo.obj1 "status" "failure"))
                         (inr PNone))
             [] fresh_frame) = inr PNone.
Proof.
  assert (Hans : answered
            (@get_node_params Demo.runtime Demo.node
               (Demo.world (Demo.responds 200 (Demo.obj1 "status" "failure"))
                           (inr PNone))
               [] fresh_frame)
            (Demo.responds 200 (Demo.obj1 "status" "failure")))
    by (eexists; vm_compute; left; reflexivity).
  assert (H2xx : is_2xx {| requests.status_code := 200;
                           requests.text := Demo.obj1 "status" "failure" |})
    by (unfold is_2xx; cbn; lia).
  exact (proj2 (proj1 (@get_node_params_soft_failure Demo.runtime Demo.node
                         _ [] fresh_frame _
                         (PDict [("status", PStr "failure")])
                         Hans H2xx eq_refl))
               eq_refl).
Defined.

(** The body [5] is well-formed JSON; [get_node_params] raises on it. *)
Example get_node_params_on_number :
  outcome (@get_node_params Demo.runtime Demo.node
             (Demo.world (Demo.responds 200 "5") (inr PNone))
             [] fresh_frame) = inl TypeError.
Proof. reflexivity. Qed.

Example get_node_params_on_null :
  outcome (@get_node_params Demo.runtime Demo.node
             (Demo.world (Demo.responds 200 "null") (inr PNone))
             [] fresh_frame) = inl TypeError.
Proof. reflexivity. Qed.

Example get_node_params_on_array :
  Demo.decode ("[" ++ Demo.quoted "status" ++ "]") =
    Some (PList [PStr "status"]) /\
  outcome (@get_node_params Demo.runtime Demo.node
             (Demo.world
                (Demo.responds 200 ("[" ++ Demo.quoted "status" ++ "]"))
                (inr PNone))
             [] fresh_frame) = inl TypeError.
Proof. split; reflexivity. Qed.

(** C1, counterexample: the sentence of the spec fails at the body [5],
    which is not returned unchanged. *)
Lemma get_node_params_spec_fails : ~ get_node_params_spec.
Proof.
  intros Hspec.
  assert (Hans : answered
            (@get_node_params Demo.runtime Demo.node
               (Demo.world (Demo.responds 200 "5") (inr PNone))
               [] fresh_frame)
            (Demo.responds 200 "5"))
    by (eexists; vm_compute; left; reflexivity).
  assert (H2xx : is_2xx {| requests.status_code := 200;
                           requests.text := "5" |})
    by (unfold is_2xx; cbn; lia).
  destruct (Hspec Demo.runtime Demo.node _ [] fresh_frame _ (PInt 5)
              Hans H2xx eq_refl) as [_ Hunchanged].
  specialize (Hunchanged eq_refl).
  rewrite get_node_params_on_number in Hunchanged. discriminate.
Qed.

(** ** The correlation fields of the mapping methods *)

(** C3 (as the code has it): after a 2xx response whose body decodes to a
    JSON object, the mapping primitive returns the field [request_id], and
    [get_mapping_status] the field [request_status], when the object has
    it, and [None] when it has not, without raising.  For a payload that is
    not an object the result is [correlation_result]: [None] for a string or
    an array that does not contain the name, [TypeError] otherwise. *)
Theorem correlation_field_or_none :
  forall (R : Runtime) (self : Node) (secret_key operation request_id : string)
         (env : Env) (h : list event) (fr : Frame)
         (resp : requests.Response) (v : pyval),
    is_2xx resp ->
    json_decode (requests.text resp) = Some v ->
    (answered (__user_node_mapping self secret_key operation env h fr)
              (inr resp) ->
     outcome (__user_node_mapping self secret_key operation env h fr) =
       correlation_result "request_id" v /\
     forall d, v = PDict d ->
       outcome (__user_node_mapping self secret_key operation env h fr) =
         inr (or_none (dict_get "request_id" d))) /\
    (answered (get_mapping_status self request_id env h fr) (inr resp) ->
     outcome (get_mapping_status self request_id env h fr) =
       correlation_result "request_status" v /\
     forall d, v = PDict d ->
       outcome (get_mapping_status self request_id env h fr) =
         inr (or_none (dict_get "request_status" d))).
Proof.
  intros R self secret_key operation request_id env h fr resp v H2xx Hdec.
  apply error_status_not_2xx in H2xx.
  split; intros Hans.
  - destruct (user_node_mapping_run R self secret_key operation env h fr)
      as [_ Hshape].
    rewrite (shape_answered Hshape Hans). cbn [settle].
    rewrite H2xx. unfold decoded. rewrite Hdec.
    split; [reflexivity | now intros d ->].
  - destruct (invoke_run R self (GetMappingStatus request_id) env h fr)
      as [_ Hshape].
    cbn [invoke] in Hshape.
    rewrite (shape_answered Hshape Hans). cbn [settle reads].
    rewrite H2xx. unfold decoded. rewrite Hdec.
    split; [reflexivity | now intros d ->].
Qed.

(** The witness of C3: the scenario of spec 8, and an object without the
    field. *)
Lemma correlation_field_or_none_witness :
  outcome (@__user_node_mapping Demo.runtime Demo.node "k" "add"
             (Demo.world (Demo.responds 200 (Demo.obj1 "request_id" "req-42"))
                         (inr (PStr "user-1")))
             [] fresh_frame) = inr (PStr "req-42") /\
  outcome (@get_mapping_status Demo.runtime Demo.node "req-42"
             (Demo.world (Demo.responds 200 "{}") (inr (PStr "user-1")))
             [] fresh_frame) = inr PNone.
Proof.
  split.
  - assert (Hans : answered
              (@__user_node_mapping Demo.runtime Demo.node "k" "add"
                 (Demo.world
                    (Demo.responds 200 (Demo.obj1 "request_id" "req-42"))
                    (inr (PStr "user-1")))
                 [] fresh_frame)
              (Demo.responds 200 (Demo.obj1 "request_id" "req-42")))
      by (eexists; vm_compute; left; reflexivity).
    assert (H2xx : is_2xx
              {| requests.status_code := 200;
                 requests.text := Demo.obj1 "request_id" "req-42" |})
      by (unfold is_2xx; cbn; lia).
    exact (proj2 (proj1 (@correlation_field_or_none Demo.runtime Demo.node
                           "k" "add" "req-42" _ [] fresh_frame _
                           (PDict [("request_id", PStr "req-42")])
                           H2xx eq_refl) Hans)
                 _ eq_refl).
  - assert (Hans : answered
              (@get_mapping_status Demo.runtime Demo.node "req-42"
                 (Demo.world (Demo.responds 200 "{}") (inr (PStr "user-1")))
                 [] fresh_frame)
              (Demo.responds 200 "{}"))
      by (eexists; vm_compute; left; reflexivity).
    assert (H2xx : is_2xx {| requests.status_code := 200;
                             requests.text := "{}" |})
      by (unfold is_2xx; cbn; lia).
    exact (proj2 (proj2 (@correlation_field_or_none Demo.runtime Demo.node
                           "k" "add" "req-42" _ [] fresh_frame _
                           (PDict [])
                           H2xx eq_refl) Hans)
                 _ eq_refl).
Defined.

(** The body [5] has no field [request_id]; the primitive raises on it. *)
Example user_node_mapping_on_number :
  outcome (@__user_node_mapping Demo.runtime Demo.node "k" "add"
             (Demo.world (Demo.responds 200 "5") (inr (PStr "user-1")))
             [] fresh_frame) = inl TypeError.
Proof. reflexivity. Qed.

Example get_mapping_status_on_null :
  outcome (@get_mapping_status Demo.runtime Demo.node "req-42"
             (Demo.world (Demo.responds 200 "null") (inr (PStr "user-1")))
             [] fresh_frame) = inl TypeError.
Proof. reflexivity. Qed.

(** C3, counterexample: the sentence of the spec fails at the body [5]:
    the field is absent and the primitive raises instead of returning
    [None]. *)
Lemma correlation_field_spec_fails : ~ correlation_field_spec.
Proof.
  intros Hspec.
  assert (Hans : answered
            (@__user_node_mapping Demo.runtime Demo.node "k" "add"
               (Demo.world (Demo.responds 200 "5") (inr (PStr "user-1")))
               [] fresh_frame)
            (Demo.responds 200 "5"))
    by (eexists; vm_compute; left; reflexivity).
  assert (H2xx : is_2xx {| requests.status_code := 200;
                           requests.text := "5" |})
    by (unfold is_2xx; cbn; lia).
  destruct (Hspec Demo.runtime Demo.node "k" "add" "req-42"
              (Demo.world (Demo.responds 200 "5") (inr (PStr "user-1")))
              [] fresh_frame _ (PInt 5) H2xx eq_refl) as [Hprim _].
  specialize (Hprim Hans).
  rewrite user_node_mapping_on_number in Hprim. discriminate.
Qed.

(** ** Transport failures *)

(** C5: when the transport raises during an operation, that call was the
    only one (nothing is retried); a [requests] [SSLError] ends in
    [SSLError] and not in [NetworkError], any other [requests]
    [ConnectionError] ends in [NetworkError] and not in [SSLError]. *)
Theorem transport_failure_classified :
  forall (R : Runtime) (self : Node) (op : operation) (env : Env)
         (h : list event) (fr : Frame) (e : exn),
    answered (invoke self op env h fr) (inl e) ->
    round_trips (emitted (invoke self op env h fr)) = 1%nat /\
    (isinstance e requests.exceptions.SSLError = true ->
     outcome (invoke self op env h fr) = inl SSLError /\
     outcome (invoke self op env h fr) <> inl NetworkError) /\
    (isinstance e requests.exceptions.SSLError = false ->
     isinstance e requests.exceptions.ConnectionError = true ->
     outcome (invoke self op env h fr) = inl NetworkError /\
     outcome (invoke self op env h fr) <> inl SSLError).
Proof.
  intros R self op env h fr e Hans.
  destruct (invoke_run R self op env h fr) as [_ Hshape].
  rewrite (shape_answered Hshape Hans), (shape_answered_once Hshape Hans).
  cbn [settle]. unfold handled.
  split; [reflexivity|]. split.
  - intros ->. split; [reflexivity | discriminate].
  - intros -> ->. split; [reflexivity | discriminate].
Qed.

(** The witness of C5: a certificate failure on the status call, a
    connection that timed out on the mapping call. *)
Lemma transport_failure_classified_witness :
  outcome (@invoke Demo.runtime Demo.node GetNodeStatus
             (Demo.world
                (inl (RequestsError requests.exceptions.SSLError None))
                (inr (PStr "user-1")))
             [] fresh_frame) = inl SSLError /\
  outcome (@invoke Demo.runtime Demo.node (AddUserNodeMapping "abc123")
             (Demo.world
                (inl (RequestsError requests.exceptions.ConnectTimeout None))
                (inr (PStr "user-1")))
             [] fresh_frame) = inl NetworkError.
Proof.
  split.
  - refine (proj1 (proj1 (proj2 (@transport_failure_classified Demo.runtime
                            Demo.node GetNodeStatus _ [] fresh_frame
                            (RequestsError requests.exceptions.SSLError None)
                            _)) eq_refl)).
    eexists. vm_compute. left. reflexivity.
  - refine (proj1 (proj2 (proj2 (@transport_failure_classified Demo.runtime
                            Demo.node (AddUserNodeMapping "abc123") _ []
                            fresh_frame
                            (RequestsError requests.exceptions.ConnectTimeout
                                           None)
                            _)) eq_refl eq_refl)).
    eexists. vm_compute. left. reflexivity.
Defined.

(** A TLS failure is a [ConnectionError] of [requests] too; the clause for
    [SSLError] comes first. *)
Example ssl_error_is_connection_error :
  isinstance (RequestsError requests.exceptions.SSLError None)
             requests.exceptions.ConnectionError = true /\
  isinstance (RequestsError requests.exceptions.ConnectionError None)
             requests.exceptions.SSLError = false.
Proof. split; reflexivity. Qed.

(** A transport exception that is neither: the handler of every method but
    [get_mapping_status] reads [response] before it was assigned. *)
Example read_timeout_on_status :
  outcome (@get_node_status Demo.runtime Demo.node
             (Demo.world
                (inl (RequestsError requests.exceptions.ReadTimeout None))
                (inr PNone))
             [] fresh_frame) = inl (UnboundLocalError "response").
Proof. reflexivity. Qed.

(** ** HTTP error statuses *)

(** C6 (as the code has it): a response with a 4xx or 5xx status makes every
    operation raise an exception that carries the raw body, a plain
    [Exception] of the body or, for [get_mapping_status], the [HTTPError] of
    the transport with its response; a response with any other status is
    read as a success; an exception of the transport always ends in an
    exception; and an operation returns only after a response whose status
    is not 4xx or 5xx. *)
Theorem error_status_raises_with_body :
  forall (R : Runtime) (self : Node) (op : operation) (env : Env)
         (h : list event) (fr : Frame),
    (forall resp,
       answered (invoke self op env h fr) (inr resp) ->
       400 <= requests.status_code resp < 600 ->
       outcome (invoke self op env h fr) = inl (http_error_of op resp) /\
       carried_body (http_error_of op resp) = Some (requests.text resp)) /\
    (forall resp,
       answered (invoke self op env h fr) (inr resp) ->
       ~ 400 <= requests.status_code resp < 600 ->
       outcome (invoke self op env h fr) = reads op resp) /\
    (forall e,
       answered (invoke self op env h fr) (inl e) ->
       exists e', outcome (invoke self op env h fr) = inl e') /\
    (forall v,
       outcome (invoke self op env h fr) = inr v ->
       exists resp,
         answered (invoke self op env h fr) (inr resp) /\
         ~ 400 <= requests.status_code resp < 600).
Proof.
  intros R self op env h fr.
  destruct (invoke_run R self op env h fr) as [_ Hshape].
  split; [|split; [|split]].
  - intros resp Hans Hstatus.
    rewrite (shape_answered Hshape Hans). cbn [settle].
    apply error_status_iff in Hstatus. rewrite Hstatus.
    split; destruct op; reflexivity.
  - intros resp Hans Hstatus.
    rewrite (shape_answered Hshape Hans). cbn [settle].
    rewrite <- error_status_iff in Hstatus.
    destruct (requests.is_error_status resp); [now destruct Hstatus|].
    reflexivity.
  - intros e Hans. rewrite (shape_answered Hshape Hans). cbn [settle].
    eexists; reflexivity.
  - intros v Hv.
    destruct (shape_returns Hshape Hv) as [[e|resp] [Hans Hset]];
      cbn [settle] in Hset; [discriminate|].
    exists resp. split; [exact Hans|].
    rewrite <- error_status_iff.
    destruct (requests.is_error_status resp); [discriminate | congruence].
Qed.

(** The witness of C6: a 404 on the config call and on the status poll. *)
Lemma error_status_raises_with_body_witness :
  outcome (@invoke Demo.runtime Demo.node GetNodeConfig
             (Demo.world (Demo.responds 404 "Not Found") (inr PNone))
             [] fresh_frame) = inl (Exception "Not Found") /\
  outcome (@invoke Demo.runtime Demo.node (GetMappingStatus "req-42")
             (Demo.world (Demo.responds 404 "Not Found") (inr PNone))
             [] fresh_frame) =
    inl (RequestsError requests.exceptions.HTTPError
           (Some {| requests.status_code := 404;
                    requests.text := "Not Found" |})).
Proof.
  split.
  - refine (proj1 (proj1 (@error_status_raises_with_body Demo.runtime
                            Demo.node GetNodeConfig _ [] fresh_frame)
                         {| requests.status_code := 404;
                            requests.text := "Not Found" |} _ _)).
    + eexists. vm_compute. left. reflexivity.
    + cbn. lia.
  - refine (proj1 (proj1 (@error_status_raises_with_body Demo.runtime
                            Demo.node (GetMappingStatus "req-42") _ []
                            fresh_frame)
                         {| requests.status_code := 404;
                            requests.text := "Not Found" |} _ _)).
    + eexists. vm_compute. left. reflexivity.
    + cbn. lia.
Defined.

(** A 304 is outside 2xx, and [raise_for_status] lets it through. *)
Example set_node_params_on_304 :
  outcome (@invoke Demo.runtime Demo.node (SetNodeParams (PDict []))
             (Demo.world (Demo.responds 304 "") (inr PNone))
             [] fresh_frame) = inr (PBool true).
Proof. reflexivity. Qed.

(** C6, counterexample: the sentence of the spec fails at the status 304,
    on which [set_node_params] returns [True]. *)
Lemma http_error_spec_fails : ~ http_error_spec.
Proof.
  intros Hspec.
  destruct (Hspec Demo.runtime Demo.node (SetNodeParams (PDict []))
              (Demo.world (Demo.responds 304 "") (inr PNone))
              [] fresh_frame
              {| requests.status_code := 304; requests.text := "" |})
    as (e & He & _).
  - eexists. vm_compute. left. reflexivity.
  - unfold is_2xx. cbn. lia.
  - rewrite set_node_params_on_304 in He. discriminate.
Qed.

(** ** Round trips *)

(** C9 (as the code has it): an operation calls the transport at most once;
    exactly once, unless the identity store raised, and then not at all.
    The store is asked once by the two mapping operations and never by the
    others. *)
Theorem round_trips_per_invocation :
  forall (R : Runtime) (self : Node) (op : operation) (env : Env)
         (h : list event) (fr : Frame),
    (round_trips (emitted (invoke self op env h fr)) <= 1)%nat /\
    round_trips (emitted (invoke self op env h fr)) =
      (if lookup_raised (emitted (invoke self op env h fr))
       then 0 else 1)%nat /\
    length (lookups (emitted (invoke self op env h fr))) =
      (if uses_identity_store op then 1 else 0)%nat.
Proof.
  intros R self op env h fr.
  destruct (invoke_run R self op env h fr) as [_ Hshape].
  destruct (shape_round_trips Hshape) as [Hrt Hl].
  rewrite Hrt, Hl.
  repeat split.
  destruct (lookup_raised _); lia.
Qed.

(** The user is not logged in: the mapping request is never sent. *)
Example add_mapping_without_user :
  @invoke Demo.runtime Demo.node (AddUserNodeMapping "abc123")
    (Demo.world (Demo.responds 200 "{}")
                (inl (OtherError "InvalidConfigError")))
    [] fresh_frame =
  {| emitted :=
       [EvLog INFO "Adding user node mapping request with nodeid : abcd1234";
        EvLookup (inl (OtherError "InvalidConfigError"))];
     locals := fresh_frame;
     outcome := inl (OtherError "InvalidConfigError") |}.
Proof. reflexivity. Qed.

(** C9, counterexample: the sentence of the spec fails for a mapping request
    of a user the identity store does not know: no round trip at all. *)
Lemma one_round_trip_spec_fails : ~ one_round_trip_spec.
Proof.
  intros Hspec.
  specialize (Hspec Demo.runtime Demo.node (AddUserNodeMapping "abc123")
                (Demo.world (Demo.responds 200 "{}")
                            (inl (OtherError "InvalidConfigError")))
                [] fresh_frame).
  rewrite add_mapping_without_user in Hspec. discriminate.
Qed.

(** ** The mapping primitive *)

(** C10: the first thing the mapping primitive does is ask the identity
    store; when the store raises, that exception is the result and the
    transport is never called. *)
Theorem user_id_lookup_comes_first :
  forall (R : Runtime) (self : Node) (secret_key operation : string)
         (env : Env) (h : list event) (fr : Frame),
    (exists rest,
       emitted (__user_node_mapping self secret_key operation env h fr) =
         EvLookup (identity_store env h) :: rest) /\
    (forall e, identity_store env h = inl e ->
       outcome (__user_node_mapping self secret_key operation env h fr) =
         inl e /\
       http_calls
         (emitted (__user_node_mapping self secret_key operation env h fr)) =
         []).
Proof.
  intros R self secret_key operation env h fr.
  destruct (user_node_mapping_run R self secret_key operation env h fr)
    as [[rest Hrest] Hshape].
  split; [exists rest; exact Hrest|].
  intros e He. apply (shape_without_user Hshape).
  rewrite Hrest, He. left. reflexivity.
Qed.

(** The witness of C10. *)
Lemma user_id_lookup_comes_first_witness :
  outcome (@__user_node_mapping Demo.runtime Demo.node "abc123" "add"
             (Demo.world (Demo.responds 200 "{}")
                         (inl (OtherError "InvalidConfigError")))
             [] fresh_frame) = inl (OtherError "InvalidConfigError") /\
  http_calls
    (emitted (@__user_node_mapping Demo.runtime Demo.node "abc123" "add"
                (Demo.world (Demo.responds 200 "{}")
                            (inl (OtherError "InvalidConfigError")))
                [] fresh_frame)) = [].
Proof.
  exact (proj2 (@user_id_lookup_comes_first Demo.runtime Demo.node
                  "abc123" "add"
                  (Demo.world (Demo.responds 200 "{}")
                              (inl (OtherError "InvalidConfigError")))
                  [] fresh_frame)
               (OtherError "InvalidConfigError") eq_refl).
Defined.

(** C2: [add_user_node_mapping s] and [remove_user_node_mapping] each ask
    the identity store once, during the call; with the user id it hands
    back they issue one PUT to the mapping endpoint whose body is the
    encoding of [{user_id, node_id, secret_key, operation}], with
    [secret_key = s], [operation = "add"] for the one and [secret_key = ""],
    [operation = "remove"] for the other. *)
Theorem mapping_requests :
  forall (R : Runtime) (self : Node) (secret_key : string) (env : Env)
         (h : list event) (fr : Frame),
    lookups (emitted (add_user_node_mapping self secret_key env h fr)) =
      [identity_store env
         (h ++ [EvLog INFO ("Adding user node mapping request with nodeid : "
                            ++ __nodeid self)])] /\
    lookups (emitted (remove_user_node_mapping self env h fr)) =
      [identity_store env
         (h ++ [EvLog INFO ("Removing user node mapping with nodeid : "
                            ++ __nodeid self)])] /\
    (forall userid,
       lookups (emitted (add_user_node_mapping self secret_key env h fr)) =
         [inr userid] ->
       exists answer,
         http_calls (emitted (add_user_node_mapping self secret_key env h fr))
         = [(mapping_request userid self secret_key "add", answer)]) /\
    (forall userid,
       lookups (emitted (remove_user_node_mapping self env h fr)) =
         [inr userid] ->
       exists answer,
         http_calls (emitted (remove_user_node_mapping self env h fr))
         = [(mapping_request userid self "" "remove", answer)]).
Proof.
  intros R self secret_key env h fr.
  destruct (invoke_run R self (AddUserNodeMapping secret_key) env h fr)
    as [_ Hadd].
  destruct (invoke_run R self RemoveUserNodeMapping env h fr) as [_ Hremove].
  cbn [invoke] in Hadd, Hremove.
  repeat split.
  - clear Hadd Hremove. run; reflexivity.
  - clear Hadd Hremove. run; reflexivity.
  - intros userid Hu. exact (shape_with_user Hadd Hu).
  - intros userid Hu. exact (shape_with_user Hremove Hu).
Qed.

(** The witness of C2: the first example of spec 8. *)
Lemma mapping_requests_witness :
  (exists answer,
     http_calls
       (emitted (@add_user_node_mapping Demo.runtime Demo.node "abc123"
                   (Demo.world (Demo.responds 200 "{}") (inr (PStr "user-1")))
                   [] fresh_frame)) =
       [(@mapping_request Demo.runtime (PStr "user-1") Demo.node
           "abc123" "add", answer)]) /\
  (exists answer,
     http_calls
       (emitted (@remove_user_node_mapping Demo.runtime Demo.node
                   (Demo.world (Demo.responds 200 "{}") (inr (PStr "user-1")))
                   [] fresh_frame)) =
       [(@mapping_request Demo.runtime (PStr "user-1") Demo.node
           "" "remove", answer)]).
Proof.
  split.
  - exact (proj1 (proj2 (proj2
             (@mapping_requests Demo.runtime Demo.node "abc123"
                (Demo.world (Demo.responds 200 "{}") (inr (PStr "user-1")))
                [] fresh_frame)))
             (PStr "user-1") eq_refl).
  - exact (proj2 (proj2 (proj2
             (@mapping_requests Demo.runtime Demo.node "abc123"
                (Demo.world (Demo.responds 200 "{}") (inr (PStr "user-1")))
                [] fresh_frame)))
             (PStr "user-1") eq_refl).
Defined.

(** The user id is asked for again on every call: after another user has
    logged in, the same [Node] sends the new id. *)
Example user_id_is_not_cached :
  map fst
    (http_calls
       (emitted
          ((@add_user_node_mapping Demo.runtime Demo.node "abc123" ;;
            @remove_user_node_mapping Demo.runtime Demo.node)
             (Demo.relogin (Demo.responds 200 "{}")) [] fresh_frame))) =
  [@mapping_request Demo.runtime (PStr "user-1") Demo.node "abc123" "add";
   @mapping_request Demo.runtime (PStr "user-2") Demo.node "" "remove"].
Proof. reflexivity. Qed.

(** ** The scenarios of spec 8 *)


Example scenario_status :
  outcome (@get_node_status Demo.runtime Demo.node
             (Demo.world (Demo.responds 200 Demo.connectivity) (inr PNone))
             [] fresh_frame) =
    inr (PDict [("connectivity", PDict [("connected", PBool true)])]).
Proof. reflexivity. Qed.

Example scenario_params_failure :
  outcome (@get_node_params Demo.runtime Demo.node
             (Demo.world (Demo.responds 200 (Demo.obj1 "status" "failure"))
                         (inr PNone))
             [] fresh_frame) = inr PNone.
Proof. reflexivity. Qed.

Example scenario_params_ok :
  outcome (@get_node_params Demo.runtime Demo.node
             (Demo.world (Demo.responds 200 (Demo.obj1 "status" "ok"))
                         (inr PNone))
             [] fresh_frame) = inr (PDict [("status", PStr "ok")]).
Proof. reflexivity. Qed.

Example scenario_mapping :
  outcome (@add_user_node_mapping Demo.runtime Demo.node "k"
             (Demo.world (Demo.responds 200 (Demo.obj1 "request_id" "req-42"))
                         (inr (PStr "user-1")))
             [] fresh_frame) = inr (PStr "req-42") /\
  outcome (@get_mapping_status Demo.runtime Demo.node "req-42"
             (Demo.world
                (Demo.responds 200 (Demo.obj1 "request_status" "confirmed"))
                (inr (PStr "user-1")))
             [] fresh_frame) = inr (PStr "confirmed").
Proof. split; reflexivity. Qed.


(** * Further properties of the methods *)

(** ** Helpers *)


Lemma prefix_spec (a b : string) :
  String.prefix a b = true <-> exists post, b = a ++ post.
Proof.
  revert b. induction a as [|c a IH]; intros b.
  - split; [intros _; exists b; reflexivity | intros _; now destruct b].
  - destruct b as [|c' b]; cbn.
    + split; [discriminate | intros [post Hp]; discriminate].
    + destruct (Ascii.ascii_dec c c') as [->|Hne].
      * rewrite IH. split; intros [post Hp]; exists post.
        -- now rewrite Hp.
        -- now injection Hp.
      * split; [discriminate|].
        intros [post Hp]. injection Hp as Hc _. congruence.
Qed.

(** [a in b] on strings holds exactly when [a] occurs in [b]. *)
Lemma str_contains_spec (a b : string) :
  str_contains a b = true <-> exists pre post, b = pre ++ a ++ post.
Proof.
  induction b as [|c b IH]; cbn [str_contains].
  - rewrite orb_false_r, prefix_spec. split.
    + intros [post Hp]. exists "", post. exact Hp.
    + intros (pre & post & Hp). destruct pre; [exists post; exact Hp|].
      discriminate.
  - rewrite orb_true_iff, prefix_spec, IH. split.
    + intros [[post Hp] | (pre & post & Hp)].
      * exists "", post. exact Hp.
      * exists (String c pre), post. cbn. now rewrite Hp.
    + intros (pre & post & Hp). destruct pre as [|c' pre].
      * left. exists post. exact Hp.
      * right. cbn in Hp. injection Hp as _ Hb. exists pre, post. exact Hb.
Qed.

(** Every request of a run is the request of the table. *)
Lemma shape_requests (r : Run pyval) (asks : bool)
    (request : pyval -> requests.Request)
    (settled : exn + requests.Response -> exn + pyval)
    (req : requests.Request) (answer : exn + requests.Response) :
  run_shape r asks request settled ->
  In (req, answer) (http_calls (emitted r)) ->
  exists userid, req = request userid.
Proof.
  intros Hshape Hin.
  destruct Hshape as [a _ _ Hc _ | u a _ _ Hc _ | e _ _ Hc _];
    rewrite Hc in Hin; tidy; eexists; reflexivity.
Qed.

Lemma node_query_flat (R : Runtime) (path : string) (self : Node) :
  node_query path self =
    serverconfig_HOST ++ path ++ "?nodeid=" ++ __nodeid self.
Proof. unfold node_query. now rewrite !append_assoc. Qed.

(** The run of the constructor on a session that has a token. *)
Lemma init_run_with_token (nodeid : string) (session : pyobject)
    (token : pyval) (env : Env) (h : list event) (fr : Frame) :
  py_getattr session "id_token" = inr token ->
  __init__ nodeid session env h fr =
    mkRun [EvLog INFO ("Initialising node with nodeid : " ++ nodeid)] fr
          (inr {| __nodeid := nodeid;
                  __session := session;
                  __request_header :=
                    [("content-type", PStr "application/json");
                     ("Authorization", token)] |}).
Proof.
  unfold py_getattr. exec. unfold py_getattr.
  destruct (dict_get "id_token" (attributes session)); intros Ht; tidy.
  reflexivity.
Qed.

(** The run of the constructor on a session that has none. *)
Lemma init_run_without_token (nodeid : string) (session : pyobject)
    (e : exn) (env : Env) (h : list event) (fr : Frame) :
  py_getattr session "id_token" = inl e ->
  exists err_str,
    __init__ nodeid session env h fr =
      mkRun [EvLog INFO ("Initialising node with nodeid : " ++ nodeid)] fr
            (inl (InvalidClassInput session err_str)).
Proof.
  unfold py_getattr. exec. unfold py_getattr.
  destruct (dict_get "id_token" (attributes session)); intros Ht; tidy.
  eexists; reflexivity.
Qed.

Lemma passes_raise_for_status (r : requests.Response) :
  ~ 400 <= requests.status_code r < 600 ->
  requests.is_error_status r = false.
Proof.
  intros Hr. destruct (requests.is_error_status r) eqn:E; [|reflexivity].
  now apply error_status_iff in E.
Qed.

(** ** Construction, then use *)

(** X1: a node constructed from a session with a token gives back, through
    [get_nodeid], the node id it was constructed with, without any call to
    the transport. *)
Theorem nodeid_round_trip :
  forall (nodeid : string) (session : pyobject) (token : pyval) (env : Env)
         (h : list event) (fr : Frame),
    py_getattr session "id_token" = inr token ->
    outcome ((node <- __init__ nodeid session ;; get_nodeid node) env h fr) =
      inr nodeid /\
    round_trips
      (emitted ((node <- __init__ nodeid session ;; get_nodeid node)
                  env h fr)) = 0%nat.
Proof.
  intros nodeid session token env h fr Htoken.
  unfold bind, Monad_M, M_bind.
  rewrite (init_run_with_token nodeid session env h fr Htoken).
  split; reflexivity.
Qed.

Lemma nodeid_round_trip_witness :
  outcome ((node <- __init__ "abcd1234" Demo.session ;; get_nodeid node)
             (Demo.world (inl NetworkError) (inl NetworkError)) []
             fresh_frame) = inr "abcd1234".
Proof.
  exact (proj1 (@nodeid_round_trip "abcd1234" Demo.session (PStr "tok")
                  (Demo.world (inl NetworkError) (inl NetworkError)) []
                  fresh_frame eq_refl)).
Defined.

(** X2: whatever operation follows the construction, each request it sends
    carries the header [content-type: application/json] and, as
    [Authorization], the token the session had at construction; from a
    session without a token nothing is ever sent. *)
Theorem requests_carry_session_token :
  forall (R : Runtime) (nodeid : string) (session : pyobject) (op : operation)
         (env : Env) (h : list event) (fr : Frame),
    (forall token req answer,
       py_getattr session "id_token" = inr token ->
       In (req, answer)
          (http_calls
             (emitted ((node <- __init__ nodeid session ;; invoke node op)
                         env h fr))) ->
       requests.headers req =
         [("content-type", PStr "application/json");
          ("Authorization", token)]) /\
    (forall e,
       py_getattr session "id_token" = inl e ->
       http_calls
         (emitted ((node <- __init__ nodeid session ;; invoke node op)
                     env h fr)) = [] /\
       exists err_str,
         outcome ((node <- __init__ nodeid session ;; invoke node op)
                    env h fr) = inl (InvalidClassInput session err_str)).
Proof.
  intros R nodeid session op env h fr. split.
  - intros token req answer Htoken.
    unfold bind, Monad_M, M_bind.
    rewrite (init_run_with_token nodeid session env h fr Htoken).
    match goal with
    | |- context [invoke ?n op env ?h' fr] =>
        destruct (invoke_run R n op env h' fr) as [_ Hshape];
        destruct (invoke n op env h' fr) as [evs fr' o]
    end.
    cbn [emitted app http_calls]. intros Hin.
    destruct (@shape_requests _ _ _ _ _ _ Hshape Hin) as [userid ->].
    destruct op; reflexivity.
  - intros e Hnone.
    unfold bind, Monad_M, M_bind.
    destruct (init_run_without_token nodeid session env h fr Hnone)
      as [err_str ->].
    split; [reflexivity | exists err_str; reflexivity].
Qed.

Lemma requests_carry_session_token_witness :
  requests.headers
    (@request_of Demo.runtime Demo.node GetNodeConfig PNone) =
    [("content-type", PStr "application/json");
     ("Authorization", PStr "tok")].
Proof.
  refine (proj1 (@requests_carry_session_token Demo.runtime "abcd1234"
                   Demo.session GetNodeConfig
                   (Demo.world (Demo.responds 200 "{}") (inr PNone)) []
                   fresh_frame)
                (PStr "tok")
                (@request_of Demo.runtime Demo.node GetNodeConfig PNone)
                (Demo.responds 200 "{}") eq_refl _).
  vm_compute. left. reflexivity.
Defined.

(** ** The requests *)

(** X3: every request of every operation carries the header of the node and
    the certificate file; the four reading operations send a GET without a
    body, [set_node_params] a PUT whose body is the encoded [data], the two
    mapping operations a PUT with a body. *)
Theorem requests_carry_header_and_certificate :
  forall (R : Runtime) (self : Node) (op : operation) (env : Env)
         (h : list event) (fr : Frame) (req : requests.Request)
         (answer : exn + requests.Response),
    In (req, answer) (http_calls (emitted (invoke self op env h fr))) ->
    requests.headers req = __request_header self /\
    requests.verify req = configmanager_CERT_FILE /\
    match op with
    | GetNodeStatus | GetNodeConfig | GetNodeParams | GetMappingStatus _ =>
        requests.verb req = requests.GET /\ requests.data req = None
    | SetNodeParams data =>
        requests.verb req = requests.PUT /\
        requests.data req = Some (json_dumps data)
    | AddUserNodeMapping _ | RemoveUserNodeMapping =>
        requests.verb req = requests.PUT /\ requests.data req <> None
    end.
Proof.
  intros R self op env h fr req answer Hin.
  destruct (invoke_run R self op env h fr) as [_ Hshape].
  destruct (@shape_requests _ _ _ _ _ _ Hshape Hin) as [userid ->].
  destruct op; cbn; repeat split; discriminate.
Qed.

Lemma requests_carry_header_and_certificate_witness :
  requests.headers
    (@request_of Demo.runtime Demo.node
       (SetNodeParams (PDict [("power", PBool true)])) PNone) =
    __request_header Demo.node /\
  requests.verify
    (@request_of Demo.runtime Demo.node
       (SetNodeParams (PDict [("power", PBool true)])) PNone) =
    "server_cert.pem" /\
  requests.verb
    (@request_of Demo.runtime Demo.node
       (SetNodeParams (PDict [("power", PBool true)])) PNone) =
    requests.PUT /\
  requests.data
    (@request_of Demo.runtime Demo.node
       (SetNodeParams (PDict [("power", PBool true)])) PNone) =
    Some (Demo.encode (PDict [("power", PBool true)])).
Proof.
  refine (@requests_carry_header_and_certificate Demo.runtime Demo.node
            (SetNodeParams (PDict [("power", PBool true)]))
            (Demo.world (Demo.responds 200 "{}") (inr PNone)) []
            fresh_frame
            (@request_of Demo.runtime Demo.node
               (SetNodeParams (PDict [("power", PBool true)])) PNone)
            (Demo.responds 200 "{}") _).
  vm_compute. left. reflexivity.
Defined.

(** X4: the URL of each request is the host followed by the path of the
    operation and its query: [?nodeid=] and the node id, as it is, for
    status, config and both params operations (which share one URL), no
    query for the mapping requests, [?&request_id=] and the request id for
    the mapping status. *)
Theorem request_urls :
  forall (R : Runtime) (self : Node) (op : operation) (env : Env)
         (h : list event) (fr : Frame) (req : requests.Request)
         (answer : exn + requests.Response),
    In (req, answer) (http_calls (emitted (invoke self op env h fr))) ->
    requests.url req =
      serverconfig_HOST ++
      match op with
      | GetNodeStatus => "user/nodes/status?nodeid=" ++ __nodeid self
      | GetNodeConfig => "user/nodes/config?nodeid=" ++ __nodeid self
      | GetNodeParams | SetNodeParams _ =>
          "user/nodes/params?nodeid=" ++ __nodeid self
      | AddUserNodeMapping _ | RemoveUserNodeMapping => "user/nodes/mapping"
      | GetMappingStatus request_id =>
          "user/nodes/mapping?&request_id=" ++ request_id
      end.
Proof.
  intros R self op env h fr req answer Hin.
  destruct (invoke_run R self op env h fr) as [_ Hshape].
  destruct (@shape_requests _ _ _ _ _ _ Hshape Hin) as [userid ->].
  destruct op; cbn [request_of get_request mapping_request requests.url];
    try apply node_query_flat; try reflexivity.
  now rewrite !append_assoc.
Qed.

Lemma request_urls_witness :
  requests.url (@request_of Demo.runtime Demo.node GetNodeStatus PNone) =
    "https://api.example/v1/user/nodes/status?nodeid=abcd1234".
Proof.
  refine (@request_urls Demo.runtime Demo.node GetNodeStatus
            (Demo.world (Demo.responds 200 "{}") (inr PNone)) []
            fresh_frame
            (@request_of Demo.runtime Demo.node GetNodeStatus PNone)
            (Demo.responds 200 "{}") _).
  vm_compute. left. reflexivity.
Defined.

(** ** Exceptions of the transport that are no connection failure *)



(** ** Bodies *)





(** X8: whatever the world answers, the value [get_node_params] returns is
    never an object whose field [status] is ["failure"]. *)
Theorem get_node_params_never_returns_failure :
  forall (R : Runtime) (self : Node) (env : Env) (h : list event)
         (fr : Frame) (v : pyval),
    outcome (get_node_params self env h fr) = inr v ->
    status_is_failure v = false.
Proof.
  intros R self env h fr v Hv.
  destruct (invoke_run R self GetNodeParams env h fr) as [_ Hshape].
  cbn [invoke] in Hshape.
  destruct (shape_returns Hshape Hv) as [[e|resp] [_ Hset]];
    cbn [settle reads] in Hset; [discriminate|].
  destruct (requests.is_error_status resp); [discriminate|].
  unfold decoded in Hset.
  destruct (json_decode (requests.text resp)) as [w|]; [|discriminate].
  destruct w; cbn in Hset; try discriminate.
  - destruct (str_contains _ _); tidy. reflexivity.
  - destruct (existsb _ _); tidy. reflexivity.
  - destruct (match dict_get "status" d with
              | Some w => py_eq_str w "failure" | None => false end) eqn:E;
      tidy; [reflexivity | exact E].
Qed.

Lemma get_node_params_never_returns_failure_witness :
  outcome (@get_node_params Demo.runtime Demo.node
             (Demo.world (Demo.responds 200 (Demo.obj1 "status" "ok"))
                         (inr PNone))
             [] fresh_frame) = inr (PDict [("status", PStr "ok")]) /\
  status_is_failure (PDict [("status", PStr "ok")]) = false.
Proof.
  split; [reflexivity|].
  exact (@get_node_params_never_returns_failure Demo.runtime Demo.node
           (Demo.world (Demo.responds 200 (Demo.obj1 "status" "ok"))
                       (inr PNone))
           [] fresh_frame (PDict [("status", PStr "ok")]) eq_refl).
Defined.

(** X9: after a response that passes [raise_for_status] and whose body
    decodes to a string, [get_node_params] raises [TypeError] when the text
    [status] occurs anywhere in the string, and returns the string as it is
    when it does not. *)
Theorem get_node_params_on_text :
  forall (R : Runtime) (self : Node) (env : Env) (h : list event)
         (fr : Frame) (resp : requests.Response) (s : string),
    answered (get_node_params self env h fr) (inr resp) ->
    ~ 400 <= requests.status_code resp < 600 ->
    json_decode (requests.text resp) = Some (PStr s) ->
    ((exists pre post, s = pre ++ "status" ++ post) ->
     outcome (get_node_params self env h fr) = inl TypeError) /\
    (~ (exists pre post, s = pre ++ "status" ++ post) ->
     outcome (get_node_params self env h fr) = inr (PStr s)).
Proof.
  intros R self env h fr resp s Hans Hstatus Hdec.
  destruct (invoke_run R self GetNodeParams env h fr) as [_ Hshape].
  cbn [invoke] in Hshape.
  rewrite (shape_answered Hshape Hans). cbn [settle reads].
  rewrite (passes_raise_for_status resp Hstatus).
  unfold decoded. rewrite Hdec. cbn [params_result].
  split; intros Hocc.
  - apply str_contains_spec in Hocc. now rewrite Hocc.
  - destruct (str_contains "status" s) eqn:E; [|reflexivity].
    apply str_contains_spec in E. contradiction.
Qed.

Lemma get_node_params_on_text_witness :
  outcome (@get_node_params Fixtures.runtime Demo.node
             (Demo.world (Demo.responds 200 (Demo.quoted "no status yet"))
                         (inr PNone))
             [] fresh_frame) = inl TypeError.
Proof.
  refine (proj1 (@get_node_params_on_text Fixtures.runtime Demo.node
                   _ [] fresh_frame
                   {| requests.status_code := 200;
                      requests.text := Demo.quoted "no status yet" |}
                   "no status yet" _ _ eq_refl) _).
  - eexists. vm_compute. left. reflexivity.
  - cbn. lia.
  - exists "no ", " yet". reflexivity.
Defined.

(** ** The public mapping operations *)

(** X10: after a response that passes [raise_for_status] and whose body
    decodes to an object, [add_user_node_mapping] and
    [remove_user_node_mapping] return the value of its field [request_id],
    and [None] when the object has no such field. *)
Theorem mapping_operations_return_request_id :
  forall (R : Runtime) (self : Node) (secret_key : string) (env : Env)
         (h : list event) (fr : Frame) (resp : requests.Response)
         (d : list (string * pyval)),
    ~ 400 <= requests.status_code resp < 600 ->
    json_decode (requests.text resp) = Some (PDict d) ->
    (answered (add_user_node_mapping self secret_key env h fr) (inr resp) ->
     outcome (add_user_node_mapping self secret_key env h fr) =
       inr (or_none (dict_get "request_id" d))) /\
    (answered (remove_user_node_mapping self env h fr) (inr resp) ->
     outcome (remove_user_node_mapping self env h fr) =
       inr (or_none (dict_get "request_id" d))).
Proof.
  intros R self secret_key env h fr resp d Hstatus Hdec.
  apply passes_raise_for_status in Hstatus.
  split; intros Hans.
  - destruct (invoke_run R self (AddUserNodeMapping secret_key) env h fr)
      as [_ Hshape].
    cbn [invoke] in Hshape.
    rewrite (shape_answered Hshape Hans). cbn [settle reads].
    rewrite Hstatus. unfold decoded. now rewrite Hdec.
  - destruct (invoke_run R self RemoveUserNodeMapping env h fr)
      as [_ Hshape].
    cbn [invoke] in Hshape.
    rewrite (shape_answered Hshape Hans). cbn [settle reads].
    rewrite Hstatus. unfold decoded. now rewrite Hdec.
Qed.

Lemma mapping_operations_return_request_id_witness :
  outcome (@add_user_node_mapping Demo.runtime Demo.node "k"
             (Demo.world (Demo.responds 201 (Demo.obj1 "request_id" "req-42"))
                         (inr (PStr "user-1")))
             [] fresh_frame) = inr (PStr "req-42") /\
  outcome (@remove_user_node_mapping Demo.runtime Demo.node
             (Demo.world (Demo.responds 200 (Demo.obj1 "status" "ok"))
                         (inr (PStr "user-1")))
             [] fresh_frame) = inr PNone.
Proof.
  split.
  - refine (proj1 (@mapping_operations_return_request_id Demo.runtime
                     Demo.node "k" _ [] fresh_frame
                     {| requests.status_code := 201;
                        requests.text := Demo.obj1 "request_id" "req-42" |}
                     [("request_id", PStr "req-42")] _ eq_refl) _).
    + cbn. lia.
    + eexists. vm_compute. left. reflexivity.
  - refine (proj2 (@mapping_operations_return_request_id Demo.runtime
                     Demo.node "k" _ [] fresh_frame
                     {| requests.status_code := 200;
                        requests.text := Demo.obj1 "status" "ok" |}
                     [("status", PStr "ok")] _ eq_refl) _).
    + cbn. lia.
    + eexists. vm_compute. left. reflexivity.
Defined.

(** X11: when the identity store raises during an operation, the operation
    is one of the two mapping operations, it raises that same exception, and
    it has not called the transport. *)
Theorem identity_store_failure :
  forall (R : Runtime) (self : Node) (op : operation) (env : Env)
         (h : list event) (fr : Frame) (e : exn),
    In (inl e) (lookups (emitted (invoke self op env h fr))) ->
    outcome (invoke self op env h fr) = inl e /\
    round_trips (emitted (invoke self op env h fr)) = 0%nat /\
    uses_identity_store op = true.
Proof.
  intros R self op env h fr e Hin.
  destruct (invoke_run R self op env h fr) as [_ Hshape].
  destruct (@shape_without_user _ _ _ _ Hshape e Hin) as [Ho Hc].
  unfold round_trips. rewrite Ho, Hc.
  repeat split.
  destruct Hshape as [a _ Hl _ _ | u a Ha _ _ _ | e' Ha _ _ _];
    [rewrite Hl in Hin; destruct Hin | exact Ha | exact Ha].
Qed.

Lemma identity_store_failure_witness :
  outcome (@invoke Demo.runtime Demo.node RemoveUserNodeMapping
             (Demo.world (Demo.responds 200 "{}")
                         (inl (OtherError "InvalidConfigError")))
             [] fresh_frame) = inl (OtherError "InvalidConfigError") /\
  round_trips
    (emitted (@invoke Demo.runtime Demo.node RemoveUserNodeMapping
                (Demo.world (Demo.responds 200 "{}")
                            (inl (OtherError "InvalidConfigError")))
                [] fresh_frame)) = 0%nat /\
  uses_identity_store RemoveUserNodeMapping = true.
Proof.
  refine (@identity_store_failure Demo.runtime Demo.node
            RemoveUserNodeMapping _ [] fresh_frame
            (OtherError "InvalidConfigError") _).
  vm_compute. left. reflexivity.
Defined.

(** X12: when the identity store hands back a user id, the mapping
    primitive writes the whole request payload, secret key included, to the
    debug log. *)
Theorem mapping_payload_is_logged :
  forall (R : Runtime) (self : Node) (secret_key operation : string)
         (env : Env) (h : list event) (fr : Frame) (userid : pyval),
    identity_store env h = inr userid ->
    In (EvLog DEBUG
          ("User node mapping request payload : " ++
           py_str (mapping_payload userid self secret_key operation)))
       (emitted (__user_node_mapping self secret_key operation env h fr)).
Proof.
  intros R self secret_key operation env h fr userid.
  unfold mapping_payload.
  run; intros Hu; tidy; cbn [In]; auto 6.
Qed.

Lemma mapping_payload_is_logged_witness :
  In (EvLog DEBUG
        ("User node mapping request payload : " ++
         Demo.encode (mapping_payload (PStr "user-1") Demo.node
                                      "abc123" "add")))
     (emitted (@__user_node_mapping Demo.runtime Demo.node "abc123" "add"
                 (Demo.world (Demo.responds 200 "{}") (inr (PStr "user-1")))
                 [] fresh_frame)).
Proof.
  exact (@mapping_payload_is_logged Demo.runtime Demo.node "abc123" "add"
           (Demo.world (Demo.responds 200 "{}") (inr (PStr "user-1")))
           [] fresh_frame (PStr "user-1") eq_refl).
Defined.
